(** * NASA Space Data Hub: the tab components of the dashboard

    A shallow embedding of the three React tab components
    ([ExoplanetsTab.js], [MarsTab.js], [IssTab.js]) and of the query
    normalizer that the specification puts in front of them.

    Each component is a record of its [useState] cells, its handlers are
    functions on that record, and its JSX is a function from the record to
    the list of conditionally rendered children.  An [await axios.get(url)]
    splits a handler in two: the part run up to the request, and the part
    run once the promise has settled. *)

From stdpp Require Import gmap strings list pretty sorting.
From Stdlib Require Import ZArith Lia Ascii.

Local Open Scope Z_scope.
Set Warnings "-register-all".

(** ** JavaScript values, as far as the components look at them *)

Module JS.

(** A JSON payload after [JSON.parse].  Numbers are the integer-valued
    ones (years, sols, ids, epoch seconds), held exactly as [Z]; a number
    with a fraction has no value here.  An object keeps its members in
    source order. *)
Inductive value : Type :=
| Undefined
| Null
| Bool (b : bool)
| Num (n : Z)
| Str (s : string)
| Arr (items : list value)
| Obj (members : list (string * value)).

(** [ToBoolean]: what [if (v)], [!v], [v && e] and [v || e] test. *)
Definition truthy (v : value) : bool :=
  match v with
  | Undefined | Null => false
  | Bool b => b
  | Num n => negb (n =? 0)
  | Str s => negb (String.eqb s "")
  | Arr _ | Obj _ => true
  end.

(** A state cell that holds [null] or a text. *)
Definition nullable (e : option string) : value :=
  match e with
  | Some s => Str s
  | None => Null
  end.

(** What React accepts as a child of an element: anything but an object,
    and an array only of such. *)
Fixpoint renderable (v : value) : bool :=
  match v with
  | Obj _ => false
  | Arr items =>
      (fix all (l : list value) : bool :=
         match l with
         | [] => true
         | x :: rest => renderable x && all rest
         end) items
  | _ => true
  end.

(** [a || b] *)
Definition or_else (a b : value) : value := if truthy a then a else b.

(** Own member [k] of an object literal; of duplicate keys the last one
    wins, as in [JSON.parse]. *)
Fixpoint member (k : string) (ms : list (string * value)) : option value :=
  match ms with
  | [] => None
  | (k', v) :: rest =>
      match member k rest with
      | Some w => Some w
      | None => if String.eqb k k' then Some v else None
      end
  end.

(** [v.k] for the property names the components read (none of them an
    array index or a member of a prototype).  [None] is the [TypeError]
    raised when [v] is [undefined] or [null].  The length of a text is
    counted in bytes, which are its code units as long as it is ASCII. *)
Definition get (v : value) (k : string) : option value :=
  match v with
  | Undefined | Null => None
  | Obj ms => Some (default Undefined (member k ms))
  | Arr items =>
      Some (if String.eqb k "length" then Num (Z.of_nat (length items)) else Undefined)
  | Str s =>
      Some (if String.eqb k "length" then Num (Z.of_nat (String.length s)) else Undefined)
  | Bool _ | Num _ => Some Undefined
  end.

(** [ToString], used by template literals and by computed property keys.
    An array prints as its elements joined by commas, [null] and
    [undefined] elements as nothing.  A number prints as its decimal
    digits, which is what the code prints for the integers below 2^53 in
    size (see [safe]); larger ones the code prints from fewer digits. *)
Fixpoint ToString (v : value) : string :=
  match v with
  | Undefined => "undefined"
  | Null => "null"
  | Bool true => "true"
  | Bool false => "false"
  | Num n => pretty n
  | Str s => s
  | Arr items =>
      (fix join (l : list value) : string :=
         match l with
         | [] => ""
         | x :: rest =>
             let sx := match x with
                       | Undefined | Null => ""
                       | _ => ToString x
                       end in
             match rest with
             | [] => sx
             | _ :: _ => sx +:+ "," +:+ join rest
             end
         end) items
  | Obj _ => "[object Object]"
  end.

(** The values whose text [ToString] gives digit for digit: every number
    in them is an integer that a double holds exactly. *)
Fixpoint safe (v : value) : bool :=
  match v with
  | Num n => Z.abs n <? 9007199254740992
  | Arr items =>
      (fix all (l : list value) : bool :=
         match l with
         | [] => true
         | x :: rest => safe x && all rest
         end) items
  | _ => true
  end.

(** The order of [Array.prototype.sort] without a comparator: by UTF-16
    code units.  On the UTF-8 bytes of two texts that is the order of the
    first bytes that differ, except that a byte from 240 on (the first byte
    of a character beyond U+FFFF, which UTF-16 writes with a surrogate
    pair) comes after 237 and before 238. *)
Definition unit_rank (a : ascii) : N :=
  let n := N_of_ascii a in
  if (240 <=? n)%N then 475%N else (2 * n)%N.

Fixpoint code_unit_leb (s1 s2 : string) : bool :=
  match s1, s2 with
  | EmptyString, _ => true
  | String _ _, EmptyString => false
  | String a r1, String b r2 =>
      if Ascii.eqb a b then code_unit_leb r1 r2
      else if ((240 <=? N_of_ascii a) && (240 <=? N_of_ascii b))%N
           then (N_of_ascii a <=? N_of_ascii b)%N
           else (unit_rank a <=? unit_rank b)%N
  end.

(** White space that [StringToNumber] strips: tab, line feed, vertical
    tab, form feed, carriage return and space. *)
Definition is_space (a : ascii) : bool :=
  let n := nat_of_ascii a in
  ((9 <=? n)%nat && (n <=? 13)%nat) || (n =? 32)%nat.

Fixpoint trim_left (s : string) : string :=
  match s with
  | String a rest => if is_space a then trim_left rest else s
  | EmptyString => s
  end.

Definition trim (s : string) : string :=
  String.rev (trim_left (String.rev (trim_left s))).

Definition digit (a : ascii) : option Z :=
  let n := nat_of_ascii a in
  if ((48 <=? n)%nat && (n <=? 57)%nat)%bool then Some (Z.of_nat n - 48) else None.


Fixpoint digits (acc : Z) (s : string) : option Z :=
  match s with
  | EmptyString => Some acc
  | String a rest => d ← digit a; digits (10 * acc + d) rest
  end.

Definition unsigned (s : string) : option Z :=
  match s with
  | EmptyString => None
  | _ => digits 0 s
  end.

(** [StringToNumber], exact on the texts that are empty (the number 0) or
    an optional sign followed by decimal digits, within ASCII white space.
    [None] is [NaN]; every other text is read as [None], which is right
    unless the text spells a number in another notation (a fraction, an
    exponent, a non-decimal literal, an infinity), for which [Z] has no
    value. *)
Definition StringToNumber (s : string) : option Z :=
  match trim s with
  | EmptyString => Some 0
  | String "+" rest => unsigned rest
  | String "-" rest => Z.opp <$> unsigned rest
  | t => unsigned t
  end.

(** [ToNumber]; [None] is [NaN].  Arrays and objects convert through their
    text. *)
Definition ToNumber (v : value) : option Z :=
  match v with
  | Undefined => None
  | Null => Some 0
  | Bool b => Some (if b then 1 else 0)
  | Num n => Some n
  | Str _ | Arr _ | Obj _ => StringToNumber (ToString v)
  end.

(** [v > 0], which converts its operand, and [v === 0], which does not;
    both for a value read from [.length]. *)
Definition gt0 (v : value) : bool :=
  match ToNumber v with Some n => 0 <? n | None => false end.

Definition is0 (v : value) : bool :=
  match v with Num n => n =? 0 | _ => false end.

(** [a * b] *)
Definition times (a b : value) : option Z :=
  x ← ToNumber a; y ← ToNumber b; Some (x * y).

(** A [Date] object is its time value, milliseconds since the epoch in
    UTC; [None] is [Invalid Date]. *)
Record Date : Type := { time_value : option Z }.

Definition TimeClip (ms : Z) : option Z :=
  if Z.abs ms <=? 8640000000000000 then Some ms else None.

(** [new Date(n)] for a number [n] *)
Definition new_Date (n : option Z) : Date :=
  {| time_value := n ≫= TimeClip |}.

(** [n.toFixed(2)]: only a number has the method, and an integer prints
    with two zero decimals (its own digits before them, for the integers
    below 2^53 in size). *)
Definition toFixed2 (v : value) : option string :=
  match v with
  | Num n => Some (pretty n +:+ ".00")
  | _ => None
  end.

End JS.

(** ** The HTTP client *)

Module Axios.

Record Response : Type := { status : Z; data : JS.value }.

(** Why the promise of [axios.get] rejected: no response at all, the
    request timed out, or a response whose status is outside 2xx. *)
Inductive Error : Type :=
| NetworkError
| TimeoutExceeded
| BadStatus (r : Response).

Inductive Settled : Type :=
| Fulfilled (r : Response)
| Rejected (e : Error).

(** A dispatched [axios.get(url)]. *)
Record Request : Type := GET { url : string }.

End Axios.

(** ** MarsTab.js *)

Module MarsTab.
Import JS Axios.

Record State : Type := {
  photos : value;      (* useState([]) *)
  sol : value;         (* useState(1000), then the text of the number input *)
  rover : string;      (* useState('curiosity'), then the selected option *)
  loading : bool;      (* useState(false) *)
  error : option string   (* useState(null) *)
}.

Definition initial : State :=
  {| photos := Arr []; sol := Num 1000; rover := "curiosity";
     loading := false; error := None |}.

Definition setPhotos (v : value) (st : State) : State :=
  {| photos := v; sol := sol st; rover := rover st;
     loading := loading st; error := error st |}.
Definition setSol (v : value) (st : State) : State :=
  {| photos := photos st; sol := v; rover := rover st;
     loading := loading st; error := error st |}.
Definition setRover (r : string) (st : State) : State :=
  {| photos := photos st; sol := sol st; rover := r;
     loading := loading st; error := error st |}.
Definition setLoading (b : bool) (st : State) : State :=
  {| photos := photos st; sol := sol st; rover := rover st;
     loading := b; error := error st |}.
Definition setError (e : option string) (st : State) : State :=
  {| photos := photos st; sol := sol st; rover := rover st;
     loading := loading st; error := e |}.

Definition failure_message : string := "Failed to fetch Mars photos".

(** [`/api/mars/rover/${roverName}/photos?sol=${solValue}`] *)
Definition photos_url (solValue : value) (roverName : string) : string :=
  "/api/mars/rover/" +:+ roverName +:+ "/photos?sol=" +:+ ToString solValue.

(** [fetchMarsPhotos] up to its [await]: the two setters, then the request. *)
Definition fetchMarsPhotos_begin (solValue : value) (roverName : string)
    (st : State) : State * Request :=
  (setError None (setLoading true st), GET (photos_url solValue roverName)).

(** The body of the [try] after the [await]; [None] when it throws. *)
Definition fetchMarsPhotos_try (r : Response) (st : State) : option State :=
  ps ← get (data r) "photos";
  Some (setPhotos (or_else ps (Arr [])) st).

(** [fetchMarsPhotos] from the settled promise on: [try], [catch], [finally]. *)
Definition fetchMarsPhotos_settle (o : Settled) (st : State) : State :=
  let caught := setError (Some failure_message) st in
  let st' := match o with
             | Fulfilled r => default caught (fetchMarsPhotos_try r st)
             | Rejected _ => caught
             end in
  setLoading false st'.

(** One whole call against a network that answers [net], when nothing
    else happens to the tab between the request and its reply; a reply
    that finds the tab in another state is [fetchMarsPhotos_settle] on that
    state. *)
Definition fetchMarsPhotos (net : Request -> Settled) (solValue : value)
    (roverName : string) (st : State) : State :=
  let '(st1, req) := fetchMarsPhotos_begin solValue roverName st in
  fetchMarsPhotos_settle (net req) st1.

(** [useEffect(() => fetchMarsPhotos(sol, rover), [sol, rover])]: the
    request sent on mount and after a change of either input. *)
Definition effect (st : State) : State * Request :=
  fetchMarsPhotos_begin (sol st) (rover st) st.

(** [onChange={(e) => setSol(e.target.value)}] and
    [onChange={(e) => setRover(e.target.value)}], each followed by the
    effect that the changed dependency triggers. *)
Definition onSolChange (text : string) (st : State) : State * Request :=
  effect (setSol (Str text) st).
Definition onRoverChange (name : string) (st : State) : State * Request :=
  effect (setRover name st).

(** What one rendered photo shows. *)
Record Card : Type := {
  key : value;             (* photo.id *)
  src : value;             (* photo.img_src *)
  alt : string;            (* `Mars ${rover} rover image` *)
  caption_sol : value;     (* photo.sol *)
  caption_camera : value   (* photo.camera.full_name *)
}.

Inductive Node : Type :=
| LoadingP                      (* <p>Loading photos...</p> *)
| ErrorP (msg : value)          (* <p className="text-danger">{error}</p> *)
| Row (cards : list Card)       (* <div className="row">...</div> *)
| NoPhotosP.                    (* <p>No photos found for this sol.</p> *)

(** One photo of the row; [None] when reading it throws or when the sol or
    the camera name is no valid child of the paragraph. *)
Definition render_card (roverName : string) (photo : value) : option Card :=
  id ← get photo "id";
  img ← get photo "img_src";
  s ← get photo "sol";
  cam ← get photo "camera";
  name ← get cam "full_name";
  if renderable s && renderable name
  then Some {| key := id; src := img;
               alt := "Mars " +:+ roverName +:+ " rover image";
               caption_sol := s; caption_camera := name |}
  else None.

(** [photos.slice(0, 10).map(...)]: only an array has both methods. *)
Definition render_row (roverName : string) (ps : value) : option Node :=
  match ps with
  | Arr items => Row <$> mapM (render_card roverName) (take 10 items)
  | _ => None
  end.

(** The conditional children of the component, in JSX order; [None] when
    rendering throws. *)
Definition render (st : State) : option (list Node) :=
  let err := nullable (error st) in
  let quiet := negb (loading st) && negb (truthy err) in
  let loadingP := if loading st then [LoadingP] else [] in
  let errorP := if truthy err then [ErrorP err] else [] in
  if quiet then
    len ← get (photos st) "length";
    row ← (if gt0 len then (λ n, [n]) <$> render_row (rover st) (photos st)
           else Some []);
    Some (loadingP ++ errorP ++ row ++ (if is0 len then [NoPhotosP] else []))
  else Some (loadingP ++ errorP).

(** The photo cards on screen. *)
Definition cards_of (v : list Node) : list Card :=
  concat (map (λ n, match n with Row cs => cs | _ => [] end) v).

End MarsTab.

(** ** ExoplanetsTab.js *)

Module ExoplanetsTab.
Import JS Axios.

Record State : Type := {
  data : value;          (* useState([]) *)
  yearFilter : string;   (* useState(''), then the text of the number input *)
  loading : bool;        (* useState(false) *)
  error : option string  (* useState(null) *)
}.

Definition initial : State :=
  {| data := Arr []; yearFilter := ""; loading := false; error := None |}.

Definition setData (v : value) (st : State) : State :=
  {| data := v; yearFilter := yearFilter st;
     loading := loading st; error := error st |}.
Definition setYearFilter (y : string) (st : State) : State :=
  {| data := data st; yearFilter := y;
     loading := loading st; error := error st |}.
Definition setLoading (b : bool) (st : State) : State :=
  {| data := data st; yearFilter := yearFilter st;
     loading := b; error := error st |}.
Definition setError (e : option string) (st : State) : State :=
  {| data := data st; yearFilter := yearFilter st;
     loading := loading st; error := e |}.

Definition failure_message : string := "Failed to fetch exoplanets data".

(** [let url = '/api/exoplanets/search?'; if (year) url += `discovery_year=${year}`] *)
Definition search_url (year : string) : string :=
  let url := "/api/exoplanets/search?" in
  if truthy (Str year) then url +:+ "discovery_year=" +:+ year else url.

Definition fetchExoplanets_begin (year : string) (st : State) : State * Request :=
  (setError None (setLoading true st), GET (search_url year)).

(** [setData(response.data.data)] *)
Definition fetchExoplanets_try (r : Response) (st : State) : option State :=
  d ← get (Axios.data r) "data";
  Some (setData d st).

Definition fetchExoplanets_settle (o : Settled) (st : State) : State :=
  let caught := setError (Some failure_message) st in
  let st' := match o with
             | Fulfilled r => default caught (fetchExoplanets_try r st)
             | Rejected _ => caught
             end in
  setLoading false st'.

(** One whole call, when nothing else happens to the tab between the
    request and its reply. *)
Definition fetchExoplanets (net : Request -> Settled) (year : string)
    (st : State) : State :=
  let '(st1, req) := fetchExoplanets_begin year st in
  fetchExoplanets_settle (net req) st1.

(** [useEffect(() => fetchExoplanets(yearFilter), [yearFilter])] *)
Definition effect (st : State) : State * Request :=
  fetchExoplanets_begin (yearFilter st) st.

(** [onChange={(e) => setYearFilter(e.target.value)}] followed by the
    effect that the changed dependency triggers. *)
Definition onChange (text : string) (st : State) : State * Request :=
  effect (setYearFilter text st).

(** The names that [{}] inherits from [Object.prototype]: under such a name
    [acc[year]] is a function (the prototype object itself, under
    [__proto__]) before anything is stored. *)
Definition inherited : list string :=
  ["constructor"; "hasOwnProperty"; "isPrototypeOf"; "propertyIsEnumerable";
   "toLocaleString"; "toString"; "valueOf"; "__proto__"; "__defineGetter__";
   "__defineSetter__"; "__lookupGetter__"; "__lookupSetter__"].

(** [planet.disc_year || 'Unknown'] *)
Definition year_of (planet : value) : option value :=
  y ← get planet "disc_year";
  Some (or_else y (Str "Unknown")).

(** What the accumulator holds under a property name: a count, or, under
    a name that [{}] inherits a function for, a text: the source text of
    that function (it depends on the engine and is not spelled out here)
    followed by [ones] characters 1. *)
Inductive cell : Type :=
| Count (n : Z)
| Text (member : string) (ones : nat).

(** [acc[k] = (acc[k] || 0) + 1] on the object [acc], which was created as
    [{}].  Under an own name a count goes up by one and a text grows by the
    character 1.  Under a name with no own entry, [acc[k]] is what
    [Object.prototype] has there: nothing for most names, and the count
    starts at 1; a function for the inherited names, and the sum is the
    text of the function followed by 1, stored as an own entry; and for
    [__proto__] the prototype object itself, where the assignment goes to
    the setter of [__proto__], which ignores a text: nothing is stored. *)
Definition file_under (k : string) (acc : gmap string cell) : gmap string cell :=
  if bool_decide (k = "__proto__") then acc
  else match acc !! k with
       | Some (Count n) => <[k := Count (n + 1)]> acc
       | Some (Text m j) => <[k := Text m (S j)]> acc
       | None =>
           if bool_decide (k ∈ inherited) then <[k := Text k 1]> acc
           else <[k := Count 1]> acc
       end.

(** The callback of the [reduce]:
    [const year = planet.disc_year || 'Unknown';
     acc[year] = (acc[year] || 0) + 1; return acc].
    [None] is the [TypeError] raised when [planet] is [null] or
    [undefined]. *)
Definition count_planet (acc : gmap string cell) (planet : value)
    : option (gmap string cell) :=
  year ← year_of planet;
  Some (file_under (ToString year) acc).

Fixpoint reduce (acc : gmap string cell) (planets : list value)
    : option (gmap string cell) :=
  match planets with
  | [] => Some acc
  | p :: rest => acc' ← count_planet acc p; reduce acc' rest
  end.

(** [data.reduce(..., {})]: only an array has the method. *)
Definition discoveryCounts (d : value) : option (gmap string cell) :=
  match d with
  | Arr planets => reduce ∅ planets
  | _ => None
  end.

(** [Object.keys(discoveryCounts).sort()], by code units. *)
Definition years (table : gmap string cell) : list string :=
  merge_sort (λ a b : string, code_unit_leb a b) (map fst (map_to_list table)).

(** [years.map((y) => discoveryCounts[y])] *)
Definition counts (table : gmap string cell) : list cell :=
  omap (λ y, table !! y) (years table).

Inductive Node : Type :=
| LoadingP                            (* <p>Loading data...</p> *)
| ErrorP (msg : value)                (* <p className="text-danger">{error}</p> *)
| Plot (x : list string) (y : list cell) (* the bar chart *)
| NoDataP.                            (* <p>No data found.</p> *)

(** The chart data is computed on every render, before the JSX. *)
Definition render (st : State) : option (list Node) :=
  table ← discoveryCounts (data st);
  len ← get (data st) "length";
  let err := nullable (error st) in
  let quiet := negb (loading st) && negb (truthy err) in
  Some ((if loading st then [LoadingP] else [])
        ++ (if truthy err then [ErrorP err] else [])
        ++ (if quiet && gt0 len then [Plot (years table) (counts table)] else [])
        ++ (if quiet && is0 len then [NoDataP] else [])).

(** The property name under which the callback counts a planet. *)
Definition year_key (planet : value) : option string :=
  ToString <$> year_of planet.

(** The planets of a list that the callback counts under [k]. *)
Definition counted_under (k : string) (planets : list value) : list value :=
  filter (λ p, year_key p = Some k) planets.

(** How many planets a cell stands for: its count, or the number of
    characters 1 behind the text. *)
Definition weight (c : cell) : Z :=
  match c with
  | Count n => n
  | Text _ j => Z.of_nat j
  end.

(** The weights of the bars, added up. *)
Definition total (bars : list cell) : Z := foldr (λ c sum, weight c + sum) 0 bars.

(** The cell that stands for [c] planets under the name [k]: none for no
    planet and none under [__proto__], a text under an inherited name, a
    count elsewhere. *)
Definition cell_for (k : string) (c : nat) : option cell :=
  match c with
  | O => None
  | S _ =>
      if bool_decide (k = "__proto__") then None
      else Some (if bool_decide (k ∈ inherited) then Text k c
                 else Count (Z.of_nat c))
  end.

(** A planet whose year prints digit for digit. *)
Definition year_is_safe (planet : value) : bool :=
  match year_of planet with
  | Some y => safe y
  | None => true
  end.

End ExoplanetsTab.

(** ** Timers of the page *)

Module Timers.
Import JS Axios.

Record Timer : Type := { timer_id : nat; due : Z; period : Z }.

(** The page as the ISS tab sees it: a millisecond clock, the live
    intervals (each one calls [fetchIssPosition]), and the requests sent
    so far, newest first, with the time of sending. *)
Record Env : Type := {
  now : Z;
  next_id : nat;
  intervals : list Timer;
  sent : list (Z * Request)
}.

Definition fresh (t0 : Z) : Env :=
  {| now := t0; next_id := 1; intervals := []; sent := [] |}.

Definition send (req : Request) (e : Env) : Env :=
  {| now := now e; next_id := next_id e; intervals := intervals e;
     sent := (now e, req) :: sent e |}.

(** [setInterval(callback, delay)] *)
Definition setInterval (delay : Z) (e : Env) : nat * Env :=
  (next_id e,
   {| now := now e; next_id := S (next_id e);
      intervals := {| timer_id := next_id e; due := now e + delay; period := delay |}
                   :: intervals e;
      sent := sent e |}).

(** [clearInterval(id)] *)
Definition clearInterval (id : nat) (e : Env) : Env :=
  {| now := now e; next_id := next_id e;
     intervals := filter (λ t, timer_id t ≠ id) (intervals e);
     sent := sent e |}.

(** Every live interval has an id that was already handed out. *)
Definition ids_handed_out (e : Env) : Prop :=
  Forall (λ t, (timer_id t < next_id e)%nat) (intervals e).

End Timers.

(** ** IssTab.js *)

Module IssTab.
Import JS Axios Timers.

Record State : Type := {
  position : value;   (* useState(null) *)
  loading : bool;     (* useState(false) *)
  error : option string   (* useState(null) *)
}.

Definition initial : State :=
  {| position := Null; loading := false; error := None |}.

Definition setPosition (v : value) (st : State) : State :=
  {| position := v; loading := loading st; error := error st |}.
Definition setLoading (b : bool) (st : State) : State :=
  {| position := position st; loading := b; error := error st |}.
Definition setError (e : option string) (st : State) : State :=
  {| position := position st; loading := loading st; error := e |}.

Definition failure_message : string := "Failed to fetch ISS position".

Definition iss_url : string := "/api/iss/".

Definition fetchIssPosition_begin (st : State) : State * Request :=
  (setError None (setLoading true st), GET iss_url).

(** [setPosition(response.data)]: no property of the body is read. *)
Definition fetchIssPosition_try (r : Response) (st : State) : option State :=
  Some (setPosition (Axios.data r) st).

Definition fetchIssPosition_settle (o : Settled) (st : State) : State :=
  let caught := setError (Some failure_message) st in
  let st' := match o with
             | Fulfilled r => default caught (fetchIssPosition_try r st)
             | Rejected _ => caught
             end in
  setLoading false st'.

(** One whole call, when nothing else happens to the tab between the
    request and its reply. *)
Definition fetchIssPosition (net : Request -> Settled) (st : State) : State :=
  let '(st1, req) := fetchIssPosition_begin st in
  fetchIssPosition_settle (net req) st1.

(** The paragraphs shown for a position. *)
Record Details : Type := {
  latitude : string;    (* position.latitude.toFixed(2) *)
  longitude : string;   (* position.longitude.toFixed(2) *)
  altitude : string;    (* position.altitude.toFixed(2) *)
  velocity : string;    (* position.velocity.toFixed(2) *)
  shown_date : Date     (* new Date(position.timestamp * 1000), printed by toLocaleString *)
}.

Inductive Node : Type :=
| LoadingP                 (* <p>Loading ISS position...</p> *)
| ErrorP (msg : value)     (* <p className="text-danger">{error}</p> *)
| DetailsDiv (d : Details)
| ZeroText.                (* a falsy number on the left of && is printed *)

Definition render_details (pos : value) : option Details :=
  lat ← get pos "latitude" ≫= toFixed2;
  lon ← get pos "longitude" ≫= toFixed2;
  alt ← get pos "altitude" ≫= toFixed2;
  vel ← get pos "velocity" ≫= toFixed2;
  ts ← get pos "timestamp";
  Some {| latitude := lat; longitude := lon; altitude := alt; velocity := vel;
          shown_date := new_Date (times ts (Num 1000)) |}.


Definition render (st : State) : option (list Node) :=
  ds ← (if truthy (position st)
        then (λ d, [DetailsDiv d]) <$> render_details (position st)
        else Some (match position st with Num _ => [ZeroText] | _ => [] end));
  let err := nullable (error st) in
  Some ((if loading st then [LoadingP] else [])
        ++ (if truthy err then [ErrorP err] else [])
        ++ ds).

(** *** The effect: one fetch at once, then one every 5000 ms

    [useEffect(() => { fetchIssPosition();
                       const interval = setInterval(fetchIssPosition, 5000);
                       return () => clearInterval(interval); }, [])] *)

Definition poll_delay : Z := 5000.

(** The tab on its page: the component state, the interval it holds while
    mounted, and the page. *)
Record Page : Type := {
  tab : State;
  interval : option nat;
  env : Env
}.

Definition call_fetch (p : Page) : Page :=
  let '(st, req) := fetchIssPosition_begin (tab p) in
  {| tab := st; interval := interval p; env := send req (env p) |}.

Definition mount (e : Env) : Page :=
  let p := call_fetch {| tab := initial; interval := None; env := e |} in
  let '(id, e') := setInterval poll_delay (env p) in
  {| tab := tab p; interval := Some id; env := e' |}.

(** The cleanup returned by the effect. *)
Definition unmount (p : Page) : Page :=
  match interval p with
  | Some id => {| tab := tab p; interval := None; env := clearInterval id (env p) |}
  | None => p
  end.

Definition reschedule (t : Z) (x : Timer) : Timer :=
  if due x =? t then {| timer_id := timer_id x; due := due x + period x; period := period x |}
  else x.

(** One millisecond passes; every interval that falls due calls
    [fetchIssPosition] and is armed again (a delay is at least 1 ms, so no
    due time is passed over). *)
Definition tick (p : Page) : Page :=
  let e := env p in
  let t := now e + 1 in
  let fired := filter (λ x, due x = t) (intervals e) in
  let e' := {| now := t; next_id := next_id e;
               intervals := map (reschedule t) (intervals e); sent := sent e |} in
  foldr (λ _ q, call_fetch q) {| tab := tab p; interval := interval p; env := e' |} fired.

(** The reply to an earlier request arrives. *)
Definition arrive (o : Settled) (p : Page) : Page :=
  {| tab := fetchIssPosition_settle o (tab p); interval := interval p; env := env p |}.

Inductive Event : Type :=
| Tick
| Arrive (o : Settled).

Definition step (p : Page) (ev : Event) : Page :=
  match ev with
  | Tick => tick p
  | Arrive o => arrive o p
  end.

Definition run (evs : list Event) (p : Page) : Page := fold_left step evs p.

(** The milliseconds that pass during a run. *)
Fixpoint ticks (evs : list Event) : Z :=
  match evs with
  | [] => 0
  | Tick :: rest => 1 + ticks rest
  | Arrive _ :: rest => ticks rest
  end.

(** When the requests of a page went out, oldest first. *)
Definition sent_times (p : Page) : list Z := rev (map fst (sent (env p))).

(** The page of a tab mounted at [t0], [5000 * q + r] ms later: the one
    interval is due at the next multiple of 5000, and a request went out at
    [t0] and at every multiple since. *)
Definition polling (t0 q r : Z) (p : Page) : Prop :=
  0 ≤ q ∧ 0 ≤ r < 5000 ∧
  now (env p) = t0 + 5000 * q + r ∧
  interval p = Some 1%nat ∧
  intervals (env p)
    = [{| timer_id := 1; due := t0 + 5000 * (q + 1); period := 5000 |}] ∧
  sent (env p) = rev (map (λ k, (t0 + 5000 * k, GET iss_url)) (seqZ 0 (q + 1))).

(** The same for a tab mounted on any page [e0] without live intervals,
    such as the page left by an earlier unmount: the requests of before
    stay in the log, below those of this mount. *)
Definition polling_on (e0 : Env) (q r : Z) (p : Page) : Prop :=
  0 ≤ q ∧ 0 ≤ r < 5000 ∧
  now (env p) = now e0 + 5000 * q + r ∧
  interval p = Some (next_id e0) ∧
  intervals (env p)
    = [{| timer_id := next_id e0; due := now e0 + 5000 * (q + 1); period := 5000 |}] ∧
  sent (env p)
    = rev (map (λ k, (now e0 + 5000 * k, GET iss_url)) (seqZ 0 (q + 1))) ++ sent e0.

End IssTab.

(** ** Navbar.js *)

Module Navbar.

Record State : Type := {
  searchQuery : string   (* useState('') *)
}.

Definition initial : State := {| searchQuery := "" |}.

(** The submit event of the form, as far as the handler touches it. *)
Record SubmitEvent : Type := { defaultPrevented : bool }.

(** The bar on its page: the state cell and the lines written by
    [console.log], oldest first, each with its two arguments. *)
Record Page : Type := {
  bar : State;
  console : list (string * string)
}.

(** [onChange={(e) => setSearchQuery(e.target.value)}] *)
Definition onChange (text : string) (p : Page) : Page :=
  {| bar := {| searchQuery := text |}; console := console p |}.

(** [handleSearch]: [e.preventDefault(); console.log('Search query:', searchQuery)] *)
Definition handleSearch (e : SubmitEvent) (p : Page) : SubmitEvent * Page :=
  ({| defaultPrevented := true |},
   {| bar := bar p;
      console := console p ++ [("Search query:", searchQuery (bar p))] |}).

Inductive Event : Type :=
| Change (text : string)
| Submit.

Definition step (p : Page) (ev : Event) : Page :=
  match ev with
  | Change text => onChange text p
  | Submit => snd (handleSearch {| defaultPrevented := false |} p)
  end.

Definition run (evs : list Event) (p : Page) : Page := fold_left step evs p.

End Navbar.

(** ** The query normalizer *)

Module Normalizer.
Import JS.

(** Raw parameters are the members of the request object in the order
    given; a normalized query has the same shape, in canonical order. *)
Definition RawParams : Type := list (string * value).
Definition NormalizedQuery : Type := list (string * value).

Inductive InvalidQuery : Type :=
| Unrecognized (field : string)
| OutOfRange (field : string) (reason : string).

Inductive Result : Type :=
| Ok (q : NormalizedQuery)
| Fails (e : InvalidQuery).

Section Normalize.

Variable current_year : Z.

(** The fields of the vocabulary other than [discovery_year] and [sol]
    (the rover name, the radius bound, ...), each with the reason, if any,
    for which it refuses a value. *)
Variable other_fields : string -> option (value -> option string).

(** Modelled from the spec: the range check of a year, which is missing
    from the sources; a year is a 4-digit integer in
    [1989, current_year + 1]. *)
Definition check_year (v : value) : option string :=
  match v with
  | Num y =>
      if negb ((1000 <=? y) && (y <=? 9999)) then Some "not a 4-digit integer"
      else if negb ((1989 <=? y) && (y <=? current_year + 1)) then Some "out of range"
      else None
  | _ => Some "not an integer"
  end.

(** Modelled from the spec: the check of a sol, which is missing from the
    sources; a sol is a non-negative integer. *)
Definition check_sol (v : value) : option string :=
  match v with
  | Num s => if s <? 0 then Some "negative" else None
  | _ => Some "not an integer"
  end.

(** Modelled from the spec: the validation of one supplied field against
    the vocabulary, which is missing from the sources. *)
Definition check_field (fv : string * value) : option InvalidQuery :=
  let '(f, v) := fv in
  let range := λ chk : value -> option string, OutOfRange f <$> chk v in
  if String.eqb f "discovery_year" then range check_year
  else if String.eqb f "sol" then range check_sol
  else match other_fields f with
       | Some chk => range chk
       | None => Some (Unrecognized f)
       end.

(** Modelled from the spec: the validation of all supplied fields, which
    is missing from the sources; the first field that fails is reported. *)
Fixpoint validate (raw : RawParams) : option InvalidQuery :=
  match raw with
  | [] => None
  | fv :: rest =>
      match check_field fv with
      | Some e => Some e
      | None => validate rest
      end
  end.

(** Modelled from the spec: the stable ordering of fields, which is
    missing from the sources; fields go by name, fields of one name in the
    order given. *)
Fixpoint insert_field (fv : string * value) (q : NormalizedQuery) : NormalizedQuery :=
  match q with
  | [] => [fv]
  | gw :: rest =>
      if String.leb (fst fv) (fst gw) then fv :: gw :: rest
      else gw :: insert_field fv rest
  end.

(** Modelled from the spec: the canonical form of a query, which is
    missing from the sources. *)
Definition canonical (raw : RawParams) : NormalizedQuery :=
  foldr insert_field [] raw.

(** Modelled from the spec: what canonical order means for a query, which
    is missing from the sources; the names of the fields ascend. *)
Fixpoint ordered (q : NormalizedQuery) : bool :=
  match q with
  | [] => true
  | fv :: rest =>
      match rest with
      | [] => true
      | gw :: _ => String.leb (fst fv) (fst gw) && ordered rest
      end
  end.

(** Modelled from the spec: [normalize], which is missing from the
    sources; it validates every supplied field and puts the fields in
    canonical order, and fails on the first invalid field. *)
Definition normalize (raw : RawParams) : Result :=
  match validate raw with
  | Some e => Fails e
  | None => Ok (canonical raw)
  end.

End Normalize.

End Normalizer.

(** ** The timestamp of a normalized record *)

Module NormalizedRecord.




End NormalizedRecord.

(** ** Inputs used in the statements below *)

Module Examples.
Import JS Axios.

(** A network that answers every request with status 200 and body [d]. *)
Definition answers (d : value) : Request -> Settled :=
  λ _, Fulfilled {| status := 200; data := d |}.

(** Modelled from the spec: the outbound response envelope
    [{ providers, records, partial }], which no source file builds. *)
Definition envelope (providers : list (string * value)) (records : list value)
    (partial : bool) : value :=
  Obj [("providers", Obj providers); ("records", Arr records);
       ("partial", Bool partial)].

Definition photo (id : Z) (s : Z) (camera : string) : value :=
  Obj [("id", Num id); ("img_src", Str "https://mars.nasa.gov/msl.jpg");
       ("sol", Num s); ("camera", Obj [("full_name", Str camera)])].

Definition twelve_photos : list value :=
  map (λ i, photo i 1000 "Mast Camera") (seqZ 1 12).

Definition planet (name : string) (year : value) : value :=
  Obj [("pl_name", Str name); ("disc_year", year)].

Definition planet_without_year (name : string) : value :=
  Obj [("pl_name", Str name)].

Definition envelope_response : Response :=
  {| status := 200;
     data := envelope [("mars", Str "success")] [photo 1 1000 "Mast Camera"] false |}.

Definition two_member_response : Response :=
  {| status := 200;
     data := Obj [("data", Arr [planet "Kepler-22 b" (Num 2011)]);
                  ("photos", Arr [photo 1 1000 "Mast Camera"])] |}.

Definition iss_body : value :=
  Obj [("latitude", Num 51); ("longitude", Num (-3)); ("altitude", Num 420);
       ("velocity", Num 27580); ("timestamp", Num 1700000000)].

(** A vocabulary for the normalizer: besides the year and the sol, the
    rover name (a text) and the radius bound (a positive number). *)
Definition other_fields (f : string) : option (value -> option string) :=
  if String.eqb f "rover"
  then Some (λ v, match v with Str _ => None | _ => Some "not a text" end)
  else if String.eqb f "radius_max"
  then Some (λ v, match v with
                  | Num n => if 0 <? n then None else Some "not positive"
                  | _ => Some "not a number"
                  end)
  else None.

Definition rover_query : list (string * value) :=
  [("sol", Num 1000); ("rover", Str "curiosity")].

Definition empty_photos_response : Response :=
  {| status := 200; data := Obj [("photos", Arr [])] |}.

Definition photo_without_camera (id : Z) : value :=
  Obj [("id", Num id); ("img_src", Str "https://mars.nasa.gov/msl.jpg");
       ("sol", Num 1000)].


Definition three_planets : list value :=
  [planet "Kepler-22 b" (Num 2011); planet_without_year "HD 1 b";
   planet "Kepler-452 b" (Num 2015)].

(** A provider that is down, and a provider that refuses the filter. *)
Definition degraded : Error :=
  BadStatus {| status := 503; data := Obj [("detail", Str "upstream unavailable")] |}.
Definition rejected_filter : Error :=
  BadStatus {| status := 400; data := Obj [("detail", Str "unsupported filter")] |}.

End Examples.

(** * Properties *)

(** ** Reading values *)

Section JSFacts.
Import JS.

Lemma get_Arr_length (items : list value) :
  get (Arr items) "length" = Some (Num (Z.of_nat (length items))).
Proof. reflexivity. Qed.

Lemma gt0_length (items : list value) :
  gt0 (Num (Z.of_nat (length items))) = bool_decide (items ≠ []).
Proof. destruct items; simpl; [done|]. apply Z.ltb_lt. lia. Qed.

Lemma is0_length (items : list value) :
  is0 (Num (Z.of_nat (length items))) = bool_decide (items = []).
Proof. by destruct items. Qed.

End JSFacts.

(** ** The Mars tab *)

Section MarsTabFacts.
Import JS Axios MarsTab.

Lemma MarsTab_settle_fulfilled (r : Response) (st : State) (ps : value) :
  get (data r) "photos" = Some ps →
  fetchMarsPhotos_settle (Fulfilled r) st
  = setLoading false (setPhotos (or_else ps (Arr [])) st).
Proof.
  intros H. unfold fetchMarsPhotos_settle, fetchMarsPhotos_try. by rewrite H.
Qed.

Lemma MarsTab_render_quiet_array (st : State) (items : list value) :
  loading st = false → truthy (nullable (error st)) = false →
  photos st = Arr items →
  render st =
    if bool_decide (items = []) then Some [NoPhotosP]
    else (λ cs, [Row cs]) <$> mapM (render_card (rover st)) (take 10 items).
Proof.
  intros Hl He Hp. unfold render. rewrite Hl, He, Hp, get_Arr_length.
  cbn [negb andb mbind option_bind app].
  rewrite gt0_length, is0_length.
  destruct items as [|p items]; [done|].
  rewrite (bool_decide_eq_true_2 (p :: items ≠ [])) by done.
  rewrite (bool_decide_eq_false_2 (p :: items = [])) by done.
  unfold render_row.
  by destruct (mapM _ _) as [cs|].
Qed.

Lemma MarsTab_render_busy (st : State) :
  loading st || truthy (nullable (error st)) = true →
  ∃ v, render st = Some v ∧ cards_of v = [].
Proof.
  intros H. unfold render.
  destruct (loading st), (truthy (nullable (error st))); simpl in *; try done;
    eexists; (split; [reflexivity|done]).
Qed.

(** C3, as the code has it: a reply with an empty [photos] array is taken
    as a success: it stores the empty list, ends the loading state and sets
    no error.  The tab then shows "No photos found for this sol." and no
    error, unless an error is on display when the reply arrives (the error
    is cleared only where a request starts, so that of another request
    that failed meanwhile is still there): then that error stays shown. *)
Theorem MarsTab_empty_reply_sets_no_error (r : Response) (st : State) :
  get (data r) "photos" = Some (Arr []) →
  let st' := fetchMarsPhotos_settle (Fulfilled r) st in
  photos st' = Arr [] ∧ loading st' = false ∧ error st' = error st ∧
  render st' = Some (if truthy (nullable (error st))
                     then [ErrorP (nullable (error st))] else [NoPhotosP]).
Proof.
  intros Hps st'. subst st'. rewrite (MarsTab_settle_fulfilled _ _ _ Hps).
  split_and!; try done.
  unfold render. cbn [loading error photos setLoading setPhotos].
  by destruct (truthy (nullable (error st))).
Qed.

Lemma MarsTab_empty_reply_sets_no_error_witness :
  let st' := fetchMarsPhotos_settle (Fulfilled Examples.empty_photos_response)
               (fst (fetchMarsPhotos_begin (Num 999999) "curiosity" initial)) in
  photos st' = Arr [] ∧ loading st' = false ∧ error st' = None ∧
  render st' = Some [NoPhotosP].
Proof.
  exact (MarsTab_empty_reply_sets_no_error Examples.empty_photos_response
           (fst (fetchMarsPhotos_begin (Num 999999) "curiosity" initial)) eq_refl).
Defined.

(** C3, as the claim has it, fails: the sol is changed twice, so two
    requests are under way; one of them fails, then the other succeeds
    with no photos.  The empty list is stored, and the tab shows the error
    of the failed request, not "No photos found for this sol.". *)
Lemma MarsTab_empty_reply_after_a_failure_shows_error :
  photos (fetchMarsPhotos_settle (Fulfilled Examples.empty_photos_response)
            (fetchMarsPhotos_settle (Rejected NetworkError)
               (fst (onSolChange "999999" (fst (onSolChange "1" initial))))))
    = Arr [] ∧
  render (fetchMarsPhotos_settle (Fulfilled Examples.empty_photos_response)
            (fetchMarsPhotos_settle (Rejected NetworkError)
               (fst (onSolChange "999999" (fst (onSolChange "1" initial))))))
    = Some [ErrorP (Str "Failed to fetch Mars photos")].
Proof. split; reflexivity. Qed.

(** C10: whatever the number of photos in the list, the tab renders the
    cards of at most its first 10 photos, in the order of the list: the
    cards on screen are those of a prefix of the list, card by card, of
    length at most 10; there are [min 10 (length items)] of them when the
    tab is neither loading nor in error, and none otherwise. *)
Theorem MarsTab_renders_first_ten (st : State) (items : list value) :
  photos st = Arr items →
  Forall (λ p, is_Some (render_card (rover st) p)) (take 10 items) →
  ∃ v, render st = Some v ∧
       Forall2 (λ p c, render_card (rover st) p = Some c)
         (take (length (cards_of v)) items) (cards_of v) ∧
       (length (cards_of v) ≤ 10)%nat ∧
       length (cards_of v)
         = (if loading st || truthy (nullable (error st)) then 0
            else 10 `min` length items)%nat.
Proof.
  intros Hp Hok.
  destruct (loading st || truthy (nullable (error st))) eqn:Hbusy.
  - destruct (MarsTab_render_busy st Hbusy) as (v & Hv & Hc).
    exists v. rewrite Hc. simpl. split_and!; [done|constructor|lia|done].
  - apply orb_false_iff in Hbusy as [Hl He].
    rewrite (MarsTab_render_quiet_array st items Hl He Hp). cbv iota.
    destruct items as [|p items].
    { exists [NoPhotosP]. simpl. split_and!; [done|constructor|lia|done]. }
    rewrite bool_decide_eq_false_2 by done.
    apply mapM_is_Some in Hok as [cs Hcs].
    rewrite Hcs. exists [Row cs]. unfold cards_of. cbn [map concat]. rewrite app_nil_r.
    pose proof (length_mapM _ _ _ Hcs) as Hlen.
    assert (take (length cs) (p :: items) = take 10 (p :: items)) as ->.
    { rewrite <-Hlen, length_take, <-take_take. by rewrite firstn_all. }
    rewrite length_take in Hlen.
    split_and!; [done|by apply mapM_Some_1|lia|lia].
Qed.

Lemma MarsTab_renders_first_ten_witness :
  ∃ v, render (setPhotos (Arr Examples.twelve_photos) initial) = Some v ∧
       Forall2 (λ p c, render_card "curiosity" p = Some c)
         (take (length (cards_of v)) Examples.twelve_photos) (cards_of v) ∧
       (length (cards_of v) ≤ 10)%nat ∧
       length (cards_of v) = 10%nat.
Proof.
  apply (MarsTab_renders_first_ten (setPhotos (Arr Examples.twelve_photos) initial)).
  - reflexivity.
  - vm_compute. repeat constructor; by eexists.
Defined.

End MarsTabFacts.

(** ** Decimal texts *)

Section DecimalFacts.
Import JS.





End DecimalFacts.

(** ** The exoplanets tab *)

Section ExoplanetsTabFacts.
Import JS Axios ExoplanetsTab.






(** C4, as the code has it: the client checks neither field.  Every text
    of the year input is sent to the search endpoint, as
    [discovery_year=<text>] unless the text is empty, and every text of the
    sol input is sent to the photos endpoint as [sol=<text>]. *)
Theorem every_year_and_sol_is_dispatched (text : string)
    (se : ExoplanetsTab.State) (sm : MarsTab.State) :
  snd (ExoplanetsTab.onChange text se)
    = GET (if bool_decide (text = "") then "/api/exoplanets/search?"
           else "/api/exoplanets/search?discovery_year=" +:+ text)
  ∧ snd (MarsTab.onSolChange text sm)
    = GET ("/api/mars/rover/" +:+ MarsTab.rover sm +:+ "/photos?sol=" +:+ text).
Proof.
  split; [|reflexivity].
  unfold onChange, effect, fetchExoplanets_begin, search_url. simpl.
  by destruct text.
Qed.

(** C4, as the claim has it, fails: the year 1500 lies outside
    [1989, current_year + 1] and the sols -5 and 1.5 are no sols, and for
    each of them a request goes out. *)
Lemma invalid_year_and_sol_are_dispatched :
  snd (ExoplanetsTab.onChange "1500" ExoplanetsTab.initial)
    = GET "/api/exoplanets/search?discovery_year=1500" ∧
  snd (MarsTab.onSolChange "-5" MarsTab.initial)
    = GET "/api/mars/rover/curiosity/photos?sol=-5" ∧
  snd (MarsTab.onSolChange "1.5" MarsTab.initial)
    = GET "/api/mars/rover/curiosity/photos?sol=1.5".
Proof. split_and!; reflexivity. Qed.

End ExoplanetsTabFacts.

(** ** What the three tabs read from a response *)

Section ResponseFacts.
Import JS Axios Examples.



(** C2, as the code has it: whatever made the fetch fail (a rejected
    request of any kind, or a reply whose body is [null] and cannot be
    read), the tab ends with its one fixed message as the error, not
    loading and with its data as before; the Mars tab then shows that
    message and nothing else. *)
Theorem every_failure_gives_the_same_message (e : Error) (code : Z)
    (se : ExoplanetsTab.State) (sm : MarsTab.State) (si : IssTab.State) :
  ExoplanetsTab.fetchExoplanets_settle (Rejected e) se
    = ExoplanetsTab.setLoading false
        (ExoplanetsTab.setError (Some "Failed to fetch exoplanets data") se)
  ∧ MarsTab.fetchMarsPhotos_settle (Rejected e) sm
    = MarsTab.setLoading false (MarsTab.setError (Some "Failed to fetch Mars photos") sm)
  ∧ IssTab.fetchIssPosition_settle (Rejected e) si
    = IssTab.setLoading false (IssTab.setError (Some "Failed to fetch ISS position") si)
  ∧ ExoplanetsTab.fetchExoplanets_settle
      (Fulfilled {| status := code; data := Null |}) se
    = ExoplanetsTab.fetchExoplanets_settle (Rejected e) se
  ∧ MarsTab.fetchMarsPhotos_settle (Fulfilled {| status := code; data := Null |}) sm
    = MarsTab.fetchMarsPhotos_settle (Rejected e) sm
  ∧ MarsTab.render (MarsTab.fetchMarsPhotos_settle (Rejected e) sm)
    = Some [MarsTab.ErrorP (Str "Failed to fetch Mars photos")].
Proof. split_and!; reflexivity. Qed.

(** C2, as the claim has it, fails: a provider that is down and a provider
    that refuses the filter are different failures, and the Mars tab shows
    the same for both, as do the states of the other two tabs. *)
Lemma failure_kinds_are_not_told_apart :
  degraded ≠ rejected_filter ∧
  MarsTab.render (MarsTab.fetchMarsPhotos (λ _, Rejected degraded)
                    (Num 1000) "curiosity" MarsTab.initial)
    = MarsTab.render (MarsTab.fetchMarsPhotos (λ _, Rejected rejected_filter)
                        (Num 1000) "curiosity" MarsTab.initial) ∧
  ExoplanetsTab.fetchExoplanets (λ _, Rejected degraded) "2023" ExoplanetsTab.initial
    = ExoplanetsTab.fetchExoplanets (λ _, Rejected rejected_filter) "2023"
        ExoplanetsTab.initial ∧
  IssTab.fetchIssPosition (λ _, Rejected degraded) IssTab.initial
    = IssTab.fetchIssPosition (λ _, Rejected rejected_filter) IssTab.initial.
Proof. split_and!; [discriminate|reflexivity..]. Qed.

End ResponseFacts.

(** ** The ISS tab *)

Section IssTabFacts.
Import JS Axios Timers IssTab NormalizedRecord.



(** The details are rendered as soon as the four coordinates are numbers,
    whatever the timestamp. *)
Lemma render_details_of_numbers (pos ts : value) (lat lon alt vel : Z) :
  get pos "latitude" = Some (Num lat) →
  get pos "longitude" = Some (Num lon) →
  get pos "altitude" = Some (Num alt) →
  get pos "velocity" = Some (Num vel) →
  get pos "timestamp" = Some ts →
  is_Some (render_details pos).
Proof.
  intros Hlat Hlon Halt Hvel Hts. unfold render_details.
  rewrite Hlat, Hlon, Halt, Hvel, Hts. by eexists.
Qed.



(** *** Polling *)

Lemma mount_polling (t0 : Z) : polling t0 0 0 (mount (fresh t0)).
Proof.
  unfold polling, mount, call_fetch, poll_delay. simpl.
  split_and!; try lia; try done.
  do 2 f_equal. lia.
Qed.

Lemma seqZ_snoc (q : Z) : 0 ≤ q → seqZ 0 (q + 1) = seqZ 0 q ++ [q].
Proof. intros Hq. by rewrite seqZ_app by lia. Qed.

Lemma tick_polling (t0 q r : Z) (p : Page) :
  polling t0 q r p →
  polling t0 (if bool_decide (r = 4999) then q + 1 else q)
             (if bool_decide (r = 4999) then 0 else r + 1) (tick p).
Proof.
  intros (Hq & Hr & Hnow & Hint & Hivs & Hsent).
  unfold polling, tick. rewrite Hivs, Hnow.
  rewrite filter_cons, filter_nil. cbn [map due]. unfold reschedule. cbn [due period timer_id].
  case_bool_decide as Hlast.
  - subst r.
    rewrite decide_True by lia.
    replace (t0 + 5000 * (q + 1) =? t0 + 5000 * q + 4999 + 1) with true
      by (symmetry; apply Z.eqb_eq; lia).
    cbn [foldr]. unfold call_fetch, send. cbn.
    split_and!; try lia; try done.
    + do 2 f_equal. lia.
    + rewrite Hsent. rewrite (seqZ_snoc (q + 1)) by lia.
      rewrite map_app, rev_app_distr. cbn. do 2 f_equal. lia.
  - rewrite decide_False by lia.
    replace (t0 + 5000 * (q + 1) =? t0 + 5000 * q + r + 1) with false
      by (symmetry; apply Z.eqb_neq; lia).
    cbn. split_and!; try lia; done.
Qed.

Lemma arrive_polling (t0 q r : Z) (o : Settled) (p : Page) :
  polling t0 q r p → polling t0 q r (arrive o p).
Proof. done. Qed.

Lemma run_polling (evs : list Event) (t0 q r : Z) (p : Page) :
  polling t0 q r p →
  ∃ q' r', polling t0 q' r' (run evs p) ∧ 5000 * q' + r' = 5000 * q + r + ticks evs.
Proof.
  revert q r p. induction evs as [|ev evs IH]; intros q r p Hp.
  { exists q, r. split; [done|simpl; lia]. }
  destruct ev as [|o].
  - apply tick_polling in Hp. apply IH in Hp as (q' & r' & Hp' & Heq).
    exists q', r'. split; [done|]. cbn [ticks].
    destruct Hp' as (_ & _ & _). case_bool_decide; lia.
  - apply (arrive_polling _ _ _ o), IH in Hp as (q' & r' & Hp' & Heq).
    exists q', r'. split; [done|]. by cbn [ticks].
Qed.

Lemma unmount_polling (t0 q r : Z) (p : Page) :
  polling t0 q r p →
  intervals (env (unmount p)) = [] ∧ sent (env (unmount p)) = sent (env p).
Proof.
  intros (_ & _ & _ & Hint & Hivs & _). unfold unmount. rewrite Hint. cbn.
  rewrite Hivs. split; [|done].
  rewrite filter_cons, filter_nil. by rewrite decide_False by (cbn; auto).
Qed.

Lemma run_idle (evs : list Event) (p : Page) :
  intervals (env p) = [] →
  intervals (env (run evs p)) = [] ∧ sent (env (run evs p)) = sent (env p).
Proof.
  revert p. induction evs as [|ev evs IH]; intros p Hp; [done|].
  assert (intervals (env (step p ev)) = [] ∧ sent (env (step p ev)) = sent (env p))
    as [Hivs Hsent].
  { destruct ev; [|done]. cbn [step]. unfold tick. by rewrite Hp. }
  destruct (IH _ Hivs) as [Hivs' Hsent']. cbn [run fold_left].
  split; [done|]. by rewrite <-Hsent.
Qed.

(** C7: from its mount at time [t0] on, the tab sends one request at once
    and one more each time 5000 ms have passed, whatever replies arrive in
    between: after a run in which [n] ms pass, requests went out exactly at
    [t0], [t0 + 5000], ..., [t0 + 5000 * (n / 5000)], each of them the
    position request.  Unmounting removes the interval, and no request is
    sent after it. *)
Theorem IssTab_polls_every_5000_ms (t0 : Z) (evs evs' : list Event) :
  let p := run evs (mount (fresh t0)) in
  sent_times p = map (λ k, t0 + 5000 * k) (seqZ 0 (ticks evs `div` 5000 + 1)) ∧
  Forall (λ tr, snd tr = GET "/api/iss/") (sent (env p)) ∧
  intervals (env (unmount p)) = [] ∧
  sent (env (run evs' (unmount p))) = sent (env p).
Proof.
  intros p.
  destruct (run_polling evs t0 0 0 _ (mount_polling t0)) as (q & r & Hp & Heq).
  fold p in Hp.
  assert (ticks evs `div` 5000 = q) as ->.
  { destruct Hp as (? & ? & _). symmetry. apply (Z.div_unique_pos _ 5000 q r); lia. }
  destruct (unmount_polling _ _ _ _ Hp) as [Hivs Hsent].
  destruct (run_idle evs' _ Hivs) as [_ Hsent'].
  destruct Hp as (_ & _ & _ & _ & _ & Hlog).
  split_and!.
  - unfold sent_times. rewrite Hlog, map_rev, rev_involutive, map_map. done.
  - rewrite Hlog. apply Forall_rev, Forall_map, Forall_forall. done.
  - done.
  - by rewrite Hsent', Hsent.
Qed.

End IssTabFacts.

(** ** The normalizer *)

Section NormalizerFacts.
Import JS Normalizer.

Variable current_year : Z.
Variable other_fields : string -> option (value -> option string).

Local Abbreviation check_field := (check_field current_year other_fields).
Local Abbreviation validate := (validate current_year other_fields).
Local Abbreviation normalize := (normalize current_year other_fields).

Lemma validate_None (raw : RawParams) :
  validate raw = None ↔ Forall (λ fv, check_field fv = None) raw.
Proof.
  induction raw as [|fv raw IH]; simpl.
  - split; [constructor|done].
  - destruct (check_field fv) eqn:Hfv.
    + split; [done|]. intros H. inversion H; congruence.
    + rewrite IH. split; [by constructor|]. by inversion 1.
Qed.

Lemma insert_field_Permutation (fv : string * value) (q : NormalizedQuery) :
  insert_field fv q ≡ₚ fv :: q.
Proof.
  induction q as [|gw q IH]; simpl; [done|].
  destruct (String.leb _ _); [done|].
  rewrite IH. apply Permutation_swap.
Qed.

Lemma canonical_Permutation (raw : RawParams) : canonical raw ≡ₚ raw.
Proof.
  induction raw as [|fv raw IH]; simpl; [done|].
  by rewrite insert_field_Permutation, IH.
Qed.

Lemma ordered_tail (fv : string * value) (q : NormalizedQuery) :
  ordered (fv :: q) = true → ordered q = true.
Proof.
  destruct q as [|gw q]; [done|]. cbn [ordered]. intros H.
  by apply andb_true_iff in H as [_ H].
Qed.

Lemma insert_field_ordered (fv : string * value) (q : NormalizedQuery) :
  ordered q = true → ordered (insert_field fv q) = true.
Proof.
  induction q as [|gw q IH]; intros Hq; [done|].
  cbn [insert_field].
  destruct (String.leb (fst fv) (fst gw)) eqn:Hle.
  { change (String.leb (fst fv) (fst gw) && ordered (gw :: q) = true).
    by rewrite Hle, Hq. }
  assert (String.leb (fst gw) (fst fv) = true) as Hge.
  { destruct (String.leb_total (fst fv) (fst gw)); congruence. }
  specialize (IH (ordered_tail _ _ Hq)).
  destruct q as [|hx q]; cbn [insert_field] in *.
  { cbn. by rewrite Hge. }
  destruct (String.leb (fst fv) (fst hx)) eqn:Hle'.
  - change (String.leb (fst gw) (fst fv) && ordered (fv :: hx :: q) = true).
    by rewrite Hge, IH.
  - cbn [ordered] in Hq. apply andb_true_iff in Hq as [Hgh _].
    set (rest := insert_field fv q) in *.
    change (String.leb (fst gw) (fst hx) && ordered (hx :: rest) = true).
    by rewrite Hgh, IH.
Qed.

Lemma canonical_ordered (raw : RawParams) : ordered (canonical raw) = true.
Proof.
  induction raw as [|fv raw IH]; [done|].
  by apply insert_field_ordered.
Qed.

Lemma canonical_fixes_ordered (q : NormalizedQuery) :
  ordered q = true → canonical q = q.
Proof.
  induction q as [|fv q IH]; intros Hq; [done|].
  cbn [canonical foldr]. fold (canonical q).
  rewrite (IH (ordered_tail _ _ Hq)).
  destruct q as [|gw q]; [done|].
  cbn [ordered] in Hq. apply andb_true_iff in Hq as [Hle _].
  cbn [insert_field]. by rewrite Hle.
Qed.

Lemma normalize_Ok (raw : RawParams) (q : NormalizedQuery) :
  normalize raw = Ok q →
  q = canonical raw ∧ ordered q = true ∧ validate q = None ∧ q ≡ₚ raw.
Proof.
  unfold Normalizer.normalize. destruct (validate raw) eqn:Hv; [done|].
  intros [= <-]. split_and!; [done|apply canonical_ordered| |apply canonical_Permutation].
  apply validate_None. rewrite canonical_Permutation. by apply validate_None.
Qed.

(** C9: [normalize] is idempotent.  A query that [normalize] returned is
    valid and in canonical order, and [normalize] returns it unchanged. *)
Theorem normalize_idempotent (raw : RawParams) (q : NormalizedQuery) :
  normalize raw = Ok q → normalize q = Ok q.
Proof.
  intros (_ & Hord & Hval & _)%normalize_Ok.
  unfold Normalizer.normalize. rewrite Hval.
  by rewrite canonical_fixes_ordered.
Qed.

End NormalizerFacts.

Lemma normalize_idempotent_witness :
  Normalizer.normalize 2026 Examples.other_fields
    [("rover", JS.Str "curiosity"); ("sol", JS.Num 1000)]
  = Normalizer.Ok [("rover", JS.Str "curiosity"); ("sol", JS.Num 1000)].
Proof.
  exact (normalize_idempotent 2026 Examples.other_fields Examples.rover_query _ eq_refl).
Defined.

(** * Further properties of the components *)

(** ** The discovery timeline *)

Section TimelineFacts.
Import JS Axios ExoplanetsTab.

Lemma count_planet_Some (acc acc' : gmap string cell) (p : value) :
  count_planet acc p = Some acc' →
  ∃ k, (year_key p = Some k) ∧ (acc' = file_under k acc).
Proof.
  unfold count_planet, year_key. destruct (year_of p) as [y|]; [|done]. simpl.
  intros [= <-]. eauto.
Qed.

Lemma file_under_lookup (acc : gmap string cell) (k0 : string) (f : string → nat) :
  (∀ k, acc !! k = cell_for k (f k)) →
  ∀ k, file_under k0 acc !! k
       = cell_for k (if bool_decide (k = k0) then S (f k) else f k).
Proof.
  intros Hacc k. unfold file_under.
  destruct (decide (k = k0)) as [->|Hne].
  - rewrite (bool_decide_eq_true_2 (k0 = k0)) by done.
    case_bool_decide as Hproto.
    { subst. rewrite Hacc. unfold cell_for. by destruct (f "__proto__"). }
    rewrite (Hacc k0).
    destruct (f k0) as [|c] eqn:Hc; unfold cell_for;
      rewrite ?(bool_decide_eq_false_2 _ Hproto).
    + case_bool_decide; by rewrite lookup_insert_eq.
    + case_bool_decide; rewrite lookup_insert_eq; [done|]. do 2 f_equal. lia.
  - rewrite (bool_decide_eq_false_2 (k = k0)) by done.
    case_bool_decide; [done|].
    destruct (acc !! k0) as [[n|m j]|];
      [| |case_bool_decide]; by rewrite lookup_insert_ne.
Qed.

Lemma reduce_counts (planets : list value) (acc t : gmap string cell)
    (f : string → nat) :
  reduce acc planets = Some t →
  (∀ k, acc !! k = cell_for k (f k)) →
  ∀ k, t !! k = cell_for k (f k + length (counted_under k planets)).
Proof.
  revert acc f. induction planets as [|p planets IH]; intros acc f Hred Hacc k.
  { injection Hred as <-. by rewrite Hacc, Nat.add_0_r. }
  cbn [reduce] in Hred.
  destruct (count_planet acc p) as [acc'|] eqn:Hp; [|done]. simpl in Hred.
  apply count_planet_Some in Hp as (k0 & Hk0 & ->).
  rewrite (IH _ _ Hred (file_under_lookup acc k0 f Hacc) k).
  f_equal. unfold counted_under. rewrite filter_cons, Hk0.
  case_bool_decide as Hk.
  - subst k0. rewrite decide_True by done. cbn [length]. lia.
  - rewrite decide_False by congruence. done.
Qed.

(** X1: the table holds, under each name, the planets of that year: when
    the reduction does not throw, the entry under a name stands for the
    number of planets of the list whose [disc_year || 'Unknown'] prints as
    that name: no entry when there is none, a count elsewhere, under an
    inherited name a text with one character 1 for each, and under
    [__proto__] never an entry.  This for the lists whose years print
    digit for digit. *)
Theorem discoveryCounts_counts_each_year (planets : list value)
    (t : gmap string cell) (k : string) :
  Forall (λ p, year_is_safe p = true) planets →
  discoveryCounts (Arr planets) = Some t →
  t !! k = cell_for k (length (counted_under k planets)).
Proof.
  intros _ H.
  exact (reduce_counts planets ∅ t (λ _, 0%nat) H (λ k', lookup_empty k') k).
Qed.

Lemma discoveryCounts_counts_each_year_witness :
  ({["2011" := Count 1; "Unknown" := Count 1; "2015" := Count 1]}
     : gmap string cell) !! "Unknown"
  = cell_for "Unknown" (length (counted_under "Unknown" Examples.three_planets)).
Proof.
  apply (discoveryCounts_counts_each_year Examples.three_planets _ "Unknown");
    [|reflexivity].
  repeat constructor.
Defined.

Lemma total_Permutation (l l' : list cell) : l ≡ₚ l' → total l = total l'.
Proof. induction 1; simpl; lia. Qed.

Lemma lookups_of_entries (t : gmap string cell) (l : list (string * cell)) :
  Forall (λ kc, t !! kc.1 = Some kc.2) l →
  omap (λ y, t !! y) l.*1 = l.*2.
Proof.
  induction 1 as [|[k c] l Hkc _ IH]; [done|].
  cbn [fmap list_fmap omap list_omap fst snd] in *. rewrite Hkc. by f_equal.
Qed.

Lemma counts_Permutation (t : gmap string cell) :
  counts t ≡ₚ (map_to_list t).*2.
Proof.
  unfold counts, years. rewrite merge_sort_Permutation.
  rewrite lookups_of_entries; [done|].
  apply Forall_forall. intros [k c]. apply elem_of_map_to_list.
Qed.

Lemma insert_total (t : gmap string cell) (k : string) (c : cell) :
  total (map_to_list (<[k := c]> t)).*2
  = total (map_to_list t).*2 - from_option weight 0 (t !! k) + weight c.
Proof.
  destruct (t !! k) as [c0|] eqn:Hk; simpl.
  - rewrite <-insert_delete_eq.
    rewrite (total_Permutation _ _
      (fmap_Permutation snd _ _
         (map_to_list_insert (delete k t) k c (lookup_delete_eq _ _)))).
    rewrite <-(total_Permutation _ _
      (fmap_Permutation snd _ _ (map_to_list_delete t k c0 Hk))).
    rewrite !fmap_cons. unfold total. cbn [foldr snd]. lia.
  - rewrite (total_Permutation _ _
      (fmap_Permutation snd _ _ (map_to_list_insert t k c Hk))).
    rewrite fmap_cons. unfold total. cbn [foldr snd]. lia.
Qed.

Lemma file_under_total (t : gmap string cell) (k : string) :
  total (map_to_list (file_under k t)).*2
  = total (map_to_list t).*2 + (if bool_decide (k = "__proto__") then 0 else 1).
Proof.
  unfold file_under. case_bool_decide; [lia|].
  destruct (t !! k) as [[n|m j]|] eqn:Hk.
  - rewrite insert_total, Hk. simpl. lia.
  - rewrite insert_total, Hk. simpl. lia.
  - case_bool_decide; rewrite insert_total, Hk; simpl; lia.
Qed.

Lemma file_under_positive (t : gmap string cell) (k : string) :
  map_Forall (λ _ c, 1 ≤ weight c) t →
  map_Forall (λ _ c, 1 ≤ weight c) (file_under k t).
Proof.
  intros Ht. unfold file_under. case_bool_decide; [done|].
  destruct (t !! k) as [[n|m j]|] eqn:Hk.
  - apply map_Forall_insert_2; [|done]. specialize (Ht _ _ Hk). simpl in *. lia.
  - apply map_Forall_insert_2; [|done]. simpl. lia.
  - case_bool_decide; (apply map_Forall_insert_2; [simpl; lia|done]).
Qed.

Lemma reduce_total (planets : list value) (acc t : gmap string cell) :
  reduce acc planets = Some t →
  total (map_to_list t).*2
  = total (map_to_list acc).*2
    + Z.of_nat (length (filter (λ p, year_key p ≠ Some "__proto__") planets)).
Proof.
  revert acc. induction planets as [|p planets IH]; intros acc Hred.
  { injection Hred as <-. simpl. lia. }
  cbn [reduce] in Hred.
  destruct (count_planet acc p) as [acc'|] eqn:Hp; [|done]. simpl in Hred.
  apply count_planet_Some in Hp as (k0 & Hk0 & ->).
  rewrite (IH _ Hred), file_under_total, filter_cons, Hk0.
  case_bool_decide as Hk.
  - subst k0. rewrite decide_False by auto. lia.
  - rewrite decide_True by congruence. cbn [length]. lia.
Qed.

Lemma reduce_positive (planets : list value) (acc t : gmap string cell) :
  map_Forall (λ _ c, 1 ≤ weight c) acc → reduce acc planets = Some t →
  map_Forall (λ _ c, 1 ≤ weight c) t.
Proof.
  revert acc. induction planets as [|p planets IH]; intros acc Hacc Hred.
  { by injection Hred as <-. }
  cbn [reduce] in Hred.
  destruct (count_planet acc p) as [acc'|] eqn:Hp; [|done]. simpl in Hred.
  apply count_planet_Some in Hp as (k0 & _ & ->).
  refine (IH _ _ Hred). by apply file_under_positive.
Qed.

(** X2: when the reduction does not throw (no planet of the list is [null]
    or [undefined]), every planet is filed once, except those whose year
    prints as [__proto__], which leave no trace: the bars, a count taken as
    it is and a text as the number of characters 1 behind it, add up to
    the number of the other planets, and no bar stands for less than one
    planet. *)
Theorem discoveryCounts_counts_every_planet (planets : list value)
    (t : gmap string cell) :
  discoveryCounts (Arr planets) = Some t →
  total (counts t)
    = Z.of_nat (length (filter (λ p, year_key p ≠ Some "__proto__") planets))
  ∧ Forall (λ c, 1 ≤ weight c) (counts t).
Proof.
  intros H. split.
  - rewrite (total_Permutation _ _ (counts_Permutation t)).
    rewrite (reduce_total planets ∅ t H). by rewrite map_to_list_empty.
  - rewrite counts_Permutation. apply Forall_fmap, Forall_forall.
    intros [k c] Hkc%elem_of_map_to_list.
    by apply (reduce_positive planets ∅ t (map_Forall_empty _) H k c).
Qed.

Lemma discoveryCounts_counts_every_planet_witness :
  total (counts {["2011" := Count 1; "Unknown" := Count 1; "2015" := Count 1]}) = 3 ∧
  Forall (λ c, 1 ≤ weight c)
    (counts {["2011" := Count 1; "Unknown" := Count 1; "2015" := Count 1]}).
Proof.
  exact (discoveryCounts_counts_every_planet Examples.three_planets _ eq_refl).
Defined.

End TimelineFacts.

(** ** The exoplanets tab, on screen *)

Section ExoplanetsViewFacts.
Import JS Axios ExoplanetsTab.

(** X4: while a request is in flight or an error is shown, the
    exoplanets tab shows neither the chart nor "No data found.": whatever
    it renders then is the loading paragraph or the error paragraph. *)
Theorem ExoplanetsTab_busy_hides_results (st : State) (v : list Node) :
  loading st || truthy (nullable (error st)) = true →
  render st = Some v →
  Forall (λ n, n = LoadingP ∨ n = ErrorP (nullable (error st))) v.
Proof.
  intros Hbusy. unfold render.
  destruct (discoveryCounts (data st)) as [t|]; [|done]. simpl.
  destruct (get (data st) "length") as [len|]; [|done]. simpl.
  intros [= <-].
  destruct (loading st), (truthy (nullable (error st))); try done; simpl;
    repeat (apply Forall_cons_2; [first [by left|by right]|]); apply Forall_nil_2.
Qed.

Lemma ExoplanetsTab_busy_hides_results_witness :
  Forall (λ n, n = LoadingP ∨ n = ErrorP Null) [LoadingP].
Proof.
  exact (ExoplanetsTab_busy_hides_results (setLoading true initial) [LoadingP]
           eq_refl eq_refl).
Defined.

(** X5: a reply whose [data] member is no array takes the tab down: the
    member is stored as it is, and the next render throws in
    [data.reduce]. *)
Theorem ExoplanetsTab_reply_without_array_breaks_render (r : Response)
    (st : State) (v : value) :
  get (Axios.data r) "data" = Some v →
  (∀ items, v ≠ Arr items) →
  data (fetchExoplanets_settle (Fulfilled r) st) = v ∧
  render (fetchExoplanets_settle (Fulfilled r) st) = None.
Proof.
  intros Hget Hv. unfold fetchExoplanets_settle, fetchExoplanets_try.
  rewrite Hget. simpl. split; [done|].
  unfold render. simpl. destruct v; try done. by destruct (Hv items).
Qed.

Lemma ExoplanetsTab_reply_without_array_breaks_render_witness :
  data (fetchExoplanets_settle (Fulfilled Examples.envelope_response) initial)
    = Undefined ∧
  render (fetchExoplanets_settle (Fulfilled Examples.envelope_response) initial)
    = None.
Proof.
  apply (ExoplanetsTab_reply_without_array_breaks_render
           Examples.envelope_response initial Undefined); [reflexivity|discriminate].
Defined.

(** X6: the year filter can be read back from the URL: two filters that
    give the same search URL are the same text. *)
Theorem search_url_is_injective (year1 year2 : string) :
  search_url year1 = search_url year2 → year1 = year2.
Proof.
  unfold search_url.
  destruct year1 as [|a y1], year2 as [|b y2]; simpl; intros H;
    by simplify_eq.
Qed.

Lemma search_url_is_injective_witness : "2020" = "2020".
Proof. exact (search_url_is_injective "2020" "2020" eq_refl). Defined.

End ExoplanetsViewFacts.

(** ** The Mars tab, further *)

Section MarsTabMoreFacts.
Import JS Axios MarsTab.

(** X7: no photo after the tenth is ever read: once the list has ten
    photos, whatever follows them (even a [null]) changes nothing on
    screen. *)
Theorem MarsTab_ignores_photos_after_the_tenth (st : State)
    (items extra : list value) :
  (10 ≤ length items)%nat →
  render (setPhotos (Arr (items ++ extra)) st) = render (setPhotos (Arr items) st).
Proof.
  intros Hlen. unfold render. cbn [loading error photos rover setPhotos].
  destruct (negb (loading st) && negb (truthy (nullable (error st)))); [|done].
  rewrite !get_Arr_length. cbn [mbind option_bind].
  rewrite !gt0_length, !is0_length.
  destruct items as [|p items]; [simpl in Hlen; lia|].
  rewrite (bool_decide_eq_true_2 ((p :: items) ++ extra ≠ [])) by done.
  rewrite (bool_decide_eq_false_2 ((p :: items) ++ extra = [])) by done.
  rewrite (bool_decide_eq_true_2 (p :: items ≠ [])) by done.
  rewrite (bool_decide_eq_false_2 (p :: items = [])) by done.
  unfold render_row. by rewrite take_app_le.
Qed.

Lemma MarsTab_ignores_photos_after_the_tenth_witness :
  render (setPhotos (Arr (Examples.twelve_photos ++ [Null])) initial)
  = render (setPhotos (Arr Examples.twelve_photos) initial).
Proof.
  apply (MarsTab_ignores_photos_after_the_tenth initial Examples.twelve_photos [Null]).
  vm_compute. lia.
Defined.

(** X8: a reply without photos is an empty gallery: when the [photos]
    member of a fulfilled reply is missing or otherwise falsy, the tab
    stores the empty list and sets no error, whatever state the reply
    finds; it then shows "No photos found for this sol." alone, unless an
    error is on display when the reply arrives, which stays shown. *)
Theorem MarsTab_missing_photos_is_empty (r : Response) (st : State) (v : value) :
  get (data r) "photos" = Some v →
  truthy v = false →
  let st' := fetchMarsPhotos_settle (Fulfilled r) st in
  photos st' = Arr [] ∧ error st' = error st ∧
  render st' = Some (if truthy (nullable (error st))
                     then [ErrorP (nullable (error st))] else [NoPhotosP]).
Proof.
  intros Hget Hv st'. subst st'. rewrite (MarsTab_settle_fulfilled _ _ _ Hget).
  unfold or_else. rewrite Hv. split_and!; try done.
  unfold render. cbn [loading error photos setLoading setPhotos].
  by destruct (truthy (nullable (error st))).
Qed.

Lemma MarsTab_missing_photos_is_empty_witness :
  let st' := fetchMarsPhotos_settle (Fulfilled Examples.envelope_response)
               (fst (fetchMarsPhotos_begin (Num 1000) "curiosity" initial)) in
  photos st' = Arr [] ∧ error st' = None ∧ render st' = Some [NoPhotosP].
Proof.
  exact (MarsTab_missing_photos_is_empty Examples.envelope_response
           (fst (fetchMarsPhotos_begin (Num 1000) "curiosity" initial))
           Undefined eq_refl eq_refl).
Defined.

Lemma render_card_needs_camera (roverName : string) (p : value) :
  get p "camera" = Some Undefined → render_card roverName p = None.
Proof.
  intros Hcam. unfold render_card. rewrite Hcam.
  destruct (get p "id"); [|done]. destruct (get p "img_src"); [|done].
  by destruct (get p "sol").
Qed.

(** X9: one photo without a [camera] among the first ten takes the whole
    gallery down: rendering throws in [photo.camera.full_name]. *)
Theorem MarsTab_photo_without_camera_breaks_render (st : State)
    (items : list value) (i : nat) (p : value) :
  loading st = false → truthy (nullable (error st)) = false →
  photos st = Arr items →
  (i < 10)%nat → items !! i = Some p →
  get p "camera" = Some Undefined →
  render st = None.
Proof.
  intros Hl He Hp Hi Hip Hcam.
  rewrite (MarsTab_render_quiet_array st items Hl He Hp).
  rewrite bool_decide_eq_false_2 by (by intros ->).
  assert (mapM (render_card (rover st)) (take 10 items) = None) as ->; [|done].
  apply mapM_None_2, Exists_exists. exists p. split.
  - apply list_elem_of_lookup. exists i. by rewrite lookup_take_lt.
  - by apply render_card_needs_camera.
Qed.

Lemma MarsTab_photo_without_camera_breaks_render_witness :
  render (setPhotos (Arr [Examples.photo 1 1000 "Mast Camera";
                          Examples.photo_without_camera 2]) initial) = None.
Proof.
  apply (MarsTab_photo_without_camera_breaks_render _
           [Examples.photo 1 1000 "Mast Camera"; Examples.photo_without_camera 2]
           1 (Examples.photo_without_camera 2)); try reflexivity.
  lia.
Defined.

End MarsTabMoreFacts.

(** ** What a fetch leaves behind *)

Section FetchFacts.
Import JS Axios.


End FetchFacts.

(** ** The ISS tab, further *)

Section IssTabMoreFacts.
Import JS Axios Timers IssTab.

(** X11: a failed poll does not blank the tab: the position of the last
    good reply stays on screen, under the error message. *)
Theorem IssTab_failed_poll_keeps_position (e : Error) (st : State) (d : Details) :
  truthy (position st) = true →
  render_details (position st) = Some d →
  position (fetchIssPosition_settle (Rejected e) st) = position st ∧
  render (fetchIssPosition_settle (Rejected e) st)
    = Some [ErrorP (Str "Failed to fetch ISS position"); DetailsDiv d].
Proof.
  intros Htruthy Hd. split; [done|].
  unfold render, fetchIssPosition_settle. cbn [position loading error setLoading setError].
  by rewrite Htruthy, Hd.
Qed.

Lemma IssTab_failed_poll_keeps_position_witness :
  position (fetchIssPosition_settle (Rejected NetworkError)
              (setPosition Examples.iss_body initial)) = Examples.iss_body ∧
  render (fetchIssPosition_settle (Rejected NetworkError)
            (setPosition Examples.iss_body initial))
    = Some [ErrorP (Str "Failed to fetch ISS position");
            DetailsDiv {| latitude := "51.00"; longitude := "-3.00";
                          altitude := "420.00"; velocity := "27580.00";
                          shown_date := {| time_value := Some 1700000000000 |} |}].
Proof.
  exact (IssTab_failed_poll_keeps_position NetworkError
           (setPosition Examples.iss_body initial) _ eq_refl eq_refl).
Defined.

(** X12: a reply that is truthy and has no numeric [latitude] (an empty
    object, a text) takes the tab down: rendering throws in
    [position.latitude.toFixed]. *)
Theorem IssTab_position_without_latitude_breaks_render (st : State) :
  truthy (position st) = true →
  (∀ n, get (position st) "latitude" ≠ Some (Num n)) →
  render st = None.
Proof.
  intros Htruthy Hlat. unfold render, render_details. rewrite Htruthy.
  destruct (get (position st) "latitude") as [v|]; [|done].
  destruct v; try done. by destruct (Hlat n).
Qed.

Lemma IssTab_position_without_latitude_breaks_render_witness :
  render (fetchIssPosition (Examples.answers (Obj [])) initial) = None.
Proof.
  apply (IssTab_position_without_latitude_breaks_render
           (fetchIssPosition (Examples.answers (Obj [])) initial)); [reflexivity|].
  intros n. discriminate.
Defined.



Lemma filter_keeps_all {A} (P : A → Prop) `{∀ x, Decision (P x)} (l : list A) :
  Forall P l → filter P l = l.
Proof.
  induction 1 as [|x l Hx _ IH]; [done|].
  by rewrite filter_cons_True, IH.
Qed.

Lemma clear_after_set (delay : Z) (e : Env) :
  ids_handed_out e →
  intervals (clearInterval (fst (setInterval delay e)) (snd (setInterval delay e)))
  = intervals e.
Proof.
  intros He. unfold clearInterval, setInterval. cbn [fst snd intervals].
  rewrite filter_cons_False by (cbn [timer_id]; intros H; by apply H).
  apply filter_keeps_all. eapply Forall_impl; [exact He|]. cbn. lia.
Qed.

(** X14: the effect and its cleanup leave no timer behind: on a page
    whose live intervals all carry ids already handed out, mounting the tab
    and unmounting it again gives back the intervals of before, with the
    one request of the mount sent; and the ids stay handed out. *)
Theorem IssTab_mount_unmount_leaves_no_timer (e : Env) :
  ids_handed_out e →
  let p := unmount (mount e) in
  interval p = None ∧
  intervals (env p) = intervals e ∧
  sent (env p) = (now e, GET "/api/iss/") :: sent e ∧
  ids_handed_out (env p).
Proof.
  intros He p. subst p.
  set (e1 := send (GET iss_url) e).
  change (env (unmount (mount e)))
    with (clearInterval (fst (setInterval poll_delay e1)) (snd (setInterval poll_delay e1))).
  split_and!.
  - done.
  - by rewrite (clear_after_set poll_delay e1 He).
  - done.
  - unfold ids_handed_out. rewrite (clear_after_set poll_delay e1 He).
    eapply Forall_impl; [exact He|]. cbn. lia.
Qed.

Lemma IssTab_mount_unmount_leaves_no_timer_witness :
  interval (unmount (mount (fresh 0))) = None ∧
  intervals (env (unmount (mount (fresh 0)))) = [] ∧
  sent (env (unmount (mount (fresh 0)))) = [(0, GET "/api/iss/")] ∧
  ids_handed_out (env (unmount (mount (fresh 0)))).
Proof.
  apply (IssTab_mount_unmount_leaves_no_timer (fresh 0)).
  constructor.
Defined.

End IssTabMoreFacts.

(** ** The navigation bar *)

Section NavbarFacts.
Import Navbar.

Lemma run_submits (n : nat) (p : Page) :
  run (repeat Submit n) p
  = {| bar := bar p;
       console := console p ++ repeat ("Search query:", searchQuery (bar p)) n |}.
Proof.
  revert p. induction n as [|n IH]; intros p.
  { simpl. rewrite app_nil_r. by destruct p. }
  cbn [repeat run fold_left]. fold (run (repeat Submit n) (step p Submit)).
  rewrite IH. cbn. by rewrite <-app_assoc.
Qed.

(** X15: submitting the search form only writes to the console: after any
    earlier events, typing a text and submitting [n] times leaves that text
    in the box and adds [n] lines to the console, each the label
    "Search query:" with the text; nothing else is added. *)
Theorem Navbar_submit_logs_the_text (evs : list Event) (text : string)
    (n : nat) (p : Page) :
  let p' := run (evs ++ Change text :: repeat Submit n) p in
  searchQuery (bar p') = text ∧
  console p' = console (run evs p) ++ repeat ("Search query:", text) n.
Proof.
  intros p'. subst p'. unfold run at 1 2. rewrite fold_left_app. cbn [fold_left].
  fold (run evs p). fold (run (repeat Submit n) (step (run evs p) (Change text))).
  by rewrite run_submits.
Qed.

End NavbarFacts.

(** ** Mounting again *)

Section RemountFacts.
Import JS Axios Timers IssTab.

Lemma mount_polling_on (e0 : Env) :
  intervals e0 = [] → polling_on e0 0 0 (mount e0).
Proof.
  intros He0. unfold polling_on, mount, call_fetch, poll_delay. cbn.
  rewrite He0. split_and!; try lia; try done.
  change (seqZ 0 (0 + 1)) with [0]. cbn. do 2 f_equal. lia.
Qed.

Lemma tick_polling_on (e0 : Env) (q r : Z) (p : Page) :
  polling_on e0 q r p →
  polling_on e0 (if bool_decide (r = 4999) then q + 1 else q)
                (if bool_decide (r = 4999) then 0 else r + 1) (tick p).
Proof.
  intros (Hq & Hr & Hnow & Hint & Hivs & Hsent).
  unfold polling_on, tick. rewrite Hivs, Hnow.
  rewrite filter_cons, filter_nil. cbn [map due]. unfold reschedule.
  cbn [due period timer_id].
  case_bool_decide as Hlast.
  - subst r.
    rewrite decide_True by lia.
    replace (now e0 + 5000 * (q + 1) =? now e0 + 5000 * q + 4999 + 1) with true
      by (symmetry; apply Z.eqb_eq; lia).
    cbn [foldr]. unfold call_fetch, send. cbn.
    split_and!; try lia; try done.
    + do 2 f_equal. lia.
    + rewrite Hsent. rewrite (seqZ_snoc (q + 1)) by lia.
      rewrite map_app, rev_app_distr. cbn. do 2 f_equal. lia.
  - rewrite decide_False by lia.
    replace (now e0 + 5000 * (q + 1) =? now e0 + 5000 * q + r + 1) with false
      by (symmetry; apply Z.eqb_neq; lia).
    cbn. split_and!; try lia; done.
Qed.

Lemma run_polling_on (evs : list Event) (e0 : Env) (q r : Z) (p : Page) :
  polling_on e0 q r p →
  ∃ q' r', polling_on e0 q' r' (run evs p) ∧
           5000 * q' + r' = 5000 * q + r + ticks evs.
Proof.
  revert q r p. induction evs as [|ev evs IH]; intros q r p Hp.
  { exists q, r. split; [done|simpl; lia]. }
  destruct ev as [|o].
  - apply tick_polling_on in Hp. apply IH in Hp as (q' & r' & Hp' & Heq).
    exists q', r'. split; [done|]. cbn [ticks]. case_bool_decide; lia.
  - assert (polling_on e0 q r (arrive o p)) as Hp' by done.
    apply IH in Hp' as (q' & r' & Hp'' & Heq).
    exists q', r'. split; [done|]. by cbn [ticks].
Qed.

(** X16: mounting the tab on a page without live intervals (the page
    left by an earlier unmount, for one) starts one poll and no more: after
    a run in which [n] ms pass there is exactly one live interval, and the
    requests of this mount went out at the time of the mount and at every
    5000 ms since, after the requests the page had sent before. *)
Theorem IssTab_remount_polls_once (e0 : Env) (evs : list Event) :
  intervals e0 = [] →
  let p := run evs (mount e0) in
  length (intervals (env p)) = 1%nat ∧
  sent_times p
  = rev (map fst (sent e0))
    ++ map (λ k, now e0 + 5000 * k) (seqZ 0 (ticks evs `div` 5000 + 1)).
Proof.
  intros He0 p.
  destruct (run_polling_on evs e0 0 0 _ (mount_polling_on e0 He0))
    as (q & r & Hp & Heq).
  fold p in Hp.
  assert (ticks evs `div` 5000 = q) as ->.
  { destruct Hp as (? & ? & _). symmetry. apply (Z.div_unique_pos _ 5000 q r); lia. }
  destruct Hp as (_ & _ & _ & _ & Hivs & Hlog).
  split; [by rewrite Hivs|].
  unfold sent_times. rewrite Hlog, map_app, rev_app_distr.
  by rewrite map_rev, rev_involutive, map_map.
Qed.

Lemma IssTab_remount_polls_once_witness :
  length (intervals (env (run (repeat Tick 3)
            (mount (env (unmount (mount (fresh 0)))))))) = 1%nat ∧
  sent_times (run (repeat Tick 3) (mount (env (unmount (mount (fresh 0))))))
  = [0; 0].
Proof.
  exact (IssTab_remount_polls_once (env (unmount (mount (fresh 0))))
           (repeat Tick 3) eq_refl).
Defined.

End RemountFacts.

(** ** Replies that arrive out of order *)

Section RaceFacts.
Import JS Axios.

(** X17: a reply is applied whichever request it answers: when the sol is
    changed twice and the reply to the first request arrives after the
    reply to the second, the tab ends up showing the photos of the first
    sol under the input of the second; and the first reply to arrive
    already ends the loading state.  The exoplanets tab does the same with
    its year filter. *)
Theorem late_reply_overwrites_newer_one (t1 t2 : string) (r1 r2 : Response)
    (v1 v2 w1 w2 : value) (sm : MarsTab.State) (se : ExoplanetsTab.State) :
  get (data r1) "photos" = Some v1 → get (data r2) "photos" = Some v2 →
  get (data r1) "data" = Some w1 → get (data r2) "data" = Some w2 →
  let m2 := fst (MarsTab.onSolChange t2 (fst (MarsTab.onSolChange t1 sm))) in
  let m3 := MarsTab.fetchMarsPhotos_settle (Fulfilled r2) m2 in
  let m4 := MarsTab.fetchMarsPhotos_settle (Fulfilled r1) m3 in
  let e2 := fst (ExoplanetsTab.onChange t2 (fst (ExoplanetsTab.onChange t1 se))) in
  let e3 := ExoplanetsTab.fetchExoplanets_settle (Fulfilled r2) e2 in
  let e4 := ExoplanetsTab.fetchExoplanets_settle (Fulfilled r1) e3 in
  (MarsTab.loading m2 = true ∧ MarsTab.loading m3 = false ∧
   MarsTab.sol m4 = Str t2 ∧ MarsTab.photos m4 = or_else v1 (Arr []) ∧
   MarsTab.error m4 = None) ∧
  (ExoplanetsTab.loading e2 = true ∧ ExoplanetsTab.loading e3 = false ∧
   ExoplanetsTab.yearFilter e4 = t2 ∧ ExoplanetsTab.data e4 = w1 ∧
   ExoplanetsTab.error e4 = None).
Proof.
  intros Hv1 Hv2 Hw1 Hw2 m2 m3 m4 e2 e3 e4. subst m2 m3 m4 e2 e3 e4.
  unfold MarsTab.fetchMarsPhotos_settle, MarsTab.fetchMarsPhotos_try,
    ExoplanetsTab.fetchExoplanets_settle, ExoplanetsTab.fetchExoplanets_try.
  rewrite Hv1, Hv2, Hw1, Hw2. by split_and!.
Qed.

Lemma late_reply_overwrites_newer_one_witness :
  let r1 := Examples.two_member_response in
  let r2 := {| status := 200; data := Obj [("data", Arr []); ("photos", Arr [])] |} in
  let m2 := fst (MarsTab.onSolChange "2" (fst (MarsTab.onSolChange "1" MarsTab.initial))) in
  let m3 := MarsTab.fetchMarsPhotos_settle (Fulfilled r2) m2 in
  let m4 := MarsTab.fetchMarsPhotos_settle (Fulfilled r1) m3 in
  let e2 := fst (ExoplanetsTab.onChange "2" (fst (ExoplanetsTab.onChange "1" ExoplanetsTab.initial))) in
  let e3 := ExoplanetsTab.fetchExoplanets_settle (Fulfilled r2) e2 in
  let e4 := ExoplanetsTab.fetchExoplanets_settle (Fulfilled r1) e3 in
  (MarsTab.loading m2 = true ∧ MarsTab.loading m3 = false ∧
   MarsTab.sol m4 = Str "2" ∧
   MarsTab.photos m4 = Arr [Examples.photo 1 1000 "Mast Camera"] ∧
   MarsTab.error m4 = None) ∧
  (ExoplanetsTab.loading e2 = true ∧ ExoplanetsTab.loading e3 = false ∧
   ExoplanetsTab.yearFilter e4 = "2" ∧
   ExoplanetsTab.data e4 = Arr [Examples.planet "Kepler-22 b" (Num 2011)] ∧
   ExoplanetsTab.error e4 = None).
Proof.
  exact (late_reply_overwrites_newer_one "1" "2" Examples.two_member_response
           {| status := 200; data := Obj [("data", Arr []); ("photos", Arr [])] |}
           _ _ _ _ MarsTab.initial ExoplanetsTab.initial
           eq_refl eq_refl eq_refl eq_refl).
Defined.

End RaceFacts.
